(** * InputForm: the query form of the deep-research frontend

    A shallow embedding of [frontend/src/components/InputForm.tsx]: the four
    [useState] cells, the model catalog [modelOptions], the event handlers
    and the part of the rendered tree that decides which events the page can
    raise.  Handlers are written in a small writer-and-error monad whose log
    is the sequence of state updates and callback invocations they perform;
    React commits the updates of one handler together, before the next
    render. *)

From Stdlib Require Import NArith String Ascii.
From stdpp Require Import base option list gmap.

Local Open Scope N_scope.

(** ** JavaScript strings *)

(** A JavaScript string is a finite sequence of UTF-16 code units. *)
Definition jsstring : Type := list N.

(** An ASCII literal of the source, as a sequence of code units. *)
Definition js (s : string) : jsstring :=
  N_of_ascii <$> list_ascii_of_string s.
Arguments js s%_string.

(** ECMAScript [WhiteSpace] and [LineTerminator] code points, the ones
    [String.prototype.trim] strips.  All of them lie in the basic plane, so
    stripping code points and stripping code units coincide. *)
Definition isWhiteSpace (c : N) : bool :=
  (c =? 0x09) || (c =? 0x0A) || (c =? 0x0B) || (c =? 0x0C) || (c =? 0x0D)
  || (c =? 0x20) || (c =? 0xA0) || (c =? 0x1680)
  || ((0x2000 <=? c) && (c <=? 0x200A))
  || (c =? 0x2028) || (c =? 0x2029) || (c =? 0x202F) || (c =? 0x205F)
  || (c =? 0x3000) || (c =? 0xFEFF).

Fixpoint trimStart (s : jsstring) : jsstring :=
  match s with
  | c :: rest => if isWhiteSpace c then trimStart rest else s
  | [] => []
  end.

Definition trimEnd (s : jsstring) : jsstring :=
  reverse (trimStart (reverse s)).

(** [String.prototype.trim] *)
Definition trim (s : jsstring) : jsstring := trimEnd (trimStart s).

(** JavaScript truthiness of a string: only the empty string is falsy. *)
Definition truthy (s : jsstring) : bool :=
  match s with [] => false | _ :: _ => true end.

(** ** The model catalog *)

Record ModelOption : Type := mkOption {
  value : jsstring;
  label : jsstring;
  icon : jsstring
}.

(** The three glyphs used as icons, as UTF-16. *)
Definition zap : jsstring := [0x26A1].
Definition brain : jsstring := [0xD83E; 0xDDE0].
Definition rocket : jsstring := [0xD83D; 0xDE80].

Definition modelOptions : gmap jsstring (list ModelOption) :=
  list_to_map [
    (js "gemini", [
      mkOption (js "gemini-2.0-flash") (js "2.0 Flash") zap;
      mkOption (js "gemini-2.5-flash-preview-04-17") (js "2.5 Flash") zap;
      mkOption (js "gemini-2.5-pro-preview-05-06") (js "2.5 Pro") brain ]);
    (js "openai", [
      mkOption (js "gpt-4o-mini") (js "GPT-4o Mini") zap;
      mkOption (js "gpt-4o") (js "GPT-4o") brain;
      mkOption (js "gpt-4-turbo") (js "GPT-4 Turbo") rocket ]);
    (js "qwen", [
      mkOption (js "qwen-plus") (js "Qwen Plus") zap;
      mkOption (js "qwen-max") (js "Qwen Max") brain ]);
    (js "grok", [
      mkOption (js "grok-beta") (js "Grok Beta") rocket ])
  ].

(** ** Component state and properties *)

(** The four [useState] cells, in declaration order. *)
Record FormState : Type := mkState {
  internalInputValue : jsstring;
  effort : jsstring;
  provider : jsstring;
  model : jsstring
}.

(** The data properties of [InputFormProps]; the two callbacks [onSubmit]
    and [onCancel] belong to the caller and appear as effects below. *)
Record Props : Type := mkProps {
  isLoading : bool;
  hasHistory : bool
}.

(** The arguments of the four [useState] calls. *)
Definition initialState : FormState :=
  {| internalInputValue := js "";
     effort := js "medium";
     provider := js "gemini";
     model := js "gemini-2.5-flash-preview-04-17" |}.

(** ** Handlers as effectful computations *)

(** What a handler can do to the world: enqueue a state update, invoke a
    callback of the caller, cancel the default action of the event it is
    handling, or reload the page. *)
Inductive Effect : Type :=
  | SetInternalInputValue (v : jsstring)
  | SetEffort (v : jsstring)
  | SetProvider (v : jsstring)
  | SetModel (v : jsstring)
  | OnSubmit (inputValue effort provider model : jsstring)
  | OnCancel
  | PreventDefault
  | Reload.

Global Instance Effect_eq_dec : EqDecision Effect.
Proof. solve_decision. Defined.

(** How a handler ends: normally, or with an uncaught [TypeError]. *)
Inductive Completion (A : Type) : Type :=
  | Normal (a : A)
  | TypeError.
Arguments Normal {A} a.
Arguments TypeError {A}.

(** The effects performed so far, in program order, and the completion. *)
Definition Handler (A : Type) : Type := list Effect * Completion A.

Global Instance Handler_ret : MRet Handler := λ A a, ([], Normal a).

Global Instance Handler_bind : MBind Handler := λ A B f m,
  match m with
  | (log, Normal a) => let '(log', c) := f a in (log ++ log', c)
  | (log, TypeError) => (log, TypeError)
  end.

Definition perform (e : Effect) : Handler () := ([e], Normal ()).
Definition throw {A : Type} : Handler A := ([], TypeError).

(** [a[0]]: raises on [undefined], yields [undefined] on an empty array. *)
Definition index0 {A : Type} (a : option (list A)) : Handler (option A) :=
  match a with
  | Some l => mret (head l)
  | None => throw
  end.

(** [o.value]: raises on [undefined]. *)
Definition getValue (o : option ModelOption) : Handler jsstring :=
  match o with
  | Some m => mret (value m)
  | None => throw
  end.

(** Lines 54-58.  A name that [modelOptions] does not own is either absent
    ([modelOptions[newProvider]] is [undefined] and indexing it raises) or
    inherited from [Object.prototype] (its element 0 is [undefined] and
    reading [.value] raises): a [TypeError] in both cases, after
    [setProvider] has run. *)
Definition handleProviderChange (newProvider : jsstring) : Handler () :=
  perform (SetProvider newProvider) ;;
  firstModel ← index0 (modelOptions !! newProvider) ;
  v ← getValue firstModel ;
  perform (SetModel v).

(** The fields of [React.KeyboardEvent] that describe the key pressed. *)
Record KeyboardEvent : Type := mkKey {
  key : jsstring;
  shiftKey : bool;
  ctrlKey : bool;
  altKey : bool;
  metaKey : bool
}.

(** The optional [React.FormEvent] argument of [handleInternalSubmit]. *)
Inductive FormEvent : Type := SubmitEvent.

Inductive Button : Type :=
  | CancelButton
  | SubmitButton (disabled : bool).

(** What the rendered tree offers to the user. *)
Record View : Type := mkView {
  textareaValue : jsstring;
  actionButton : Button;
  effortItems : list jsstring;
  providerItems : list jsstring;
  modelItems : list jsstring;
  newSearchButton : bool
}.

(** The body of the component function for one render: the handlers close
    over the state and properties of that render. *)
Section Render.
Variable props : Props.
Variable s : FormState.

(** Lines 60-65. *)
Definition handleInternalSubmit (e : option FormEvent) : Handler () :=
  (if e is Some _ then perform PreventDefault else mret ()) ;;
  if negb (truthy (trim (internalInputValue s))) then mret ()
  else
    perform
      (OnSubmit (internalInputValue s) (effort s) (provider s) (model s)) ;;
    perform (SetInternalInputValue (js "")).

(** Lines 67-74. *)
Definition handleInternalKeyDown (e : KeyboardEvent) : Handler () :=
  if bool_decide (key e = js "Enter") && negb (shiftKey e) then
    perform PreventDefault ;;
    handleInternalSubmit None
  else mret ().

(** Line 76. *)
Definition isSubmitDisabled : bool :=
  negb (truthy (trim (internalInputValue s))) || isLoading props.

(** Lines 98-122: the cancel button replaces the submit button while a
    request is in flight. *)
Definition renderActionButton : Button :=
  if isLoading props then CancelButton
  else SubmitButton isSubmitDisabled.

(** Lines 205-216: one item per model of the current provider.  Mapping
    over [undefined] raises when the catalog has no such provider; [None]
    stands for that [TypeError]. *)
Definition renderModelItems : option (list jsstring) :=
  match modelOptions !! provider s with
  | Some options => Some (value <$> options)
  | None => None
  end.

(** Lines 78-233, without styling. *)
Definition render : option View :=
  items ← renderModelItems ;
  Some {| textareaValue := internalInputValue s;
          actionButton := renderActionButton;
          effortItems := [js "low"; js "medium"; js "high"];
          providerItems := [js "gemini"; js "openai"; js "qwen"; js "grok"];
          modelItems := items;
          newSearchButton := hasHistory props |}.
End Render.

(** ** Events and state transitions *)

(** The handler invocations React can make on this component, one per
    listener attached in the rendered tree. *)
Inductive Event : Type :=
  | TextareaChange (targetValue : jsstring)
  | TextareaKeyDown (e : KeyboardEvent)
  | FormSubmit (e : FormEvent)
  | EffortValueChange (v : jsstring)
  | ProviderValueChange (v : jsstring)
  | ModelValueChange (v : jsstring)
  | CancelClick
  | NewSearchClick.

(** The listener attached for each event (lines 80, 90, 91, 104, 132, 163,
    200 and 225). *)
Definition handle (s : FormState) (ev : Event) : Handler () :=
  match ev with
  | TextareaChange targetValue => perform (SetInternalInputValue targetValue)
  | TextareaKeyDown e => handleInternalKeyDown s e
  | FormSubmit e => handleInternalSubmit s (Some e)
  | EffortValueChange v => perform (SetEffort v)
  | ProviderValueChange v => handleProviderChange v
  | ModelValueChange v => perform (SetModel v)
  | CancelClick => perform OnCancel
  | NewSearchClick => perform Reload
  end.

(** The effect of one logged action on the state cells.  Callbacks and
    [preventDefault] leave them alone; a page reload mounts the component
    afresh. *)
Definition applyEffect (s : FormState) (e : Effect) : FormState :=
  match e with
  | SetInternalInputValue v =>
      {| internalInputValue := v; effort := effort s;
         provider := provider s; model := model s |}
  | SetEffort v =>
      {| internalInputValue := internalInputValue s; effort := v;
         provider := provider s; model := model s |}
  | SetProvider v =>
      {| internalInputValue := internalInputValue s; effort := effort s;
         provider := v; model := model s |}
  | SetModel v =>
      {| internalInputValue := internalInputValue s; effort := effort s;
         provider := provider s; model := v |}
  | OnSubmit _ _ _ _ | OnCancel | PreventDefault => s
  | Reload => initialState
  end.

(** React applies all updates enqueued by one handler before it renders
    again: the states between two updates of a batch are never rendered. *)
Definition commit (s : FormState) (log : list Effect) : FormState :=
  foldl applyEffect s log.

(** One transition of the component.  An exception escaping a handler is
    not caught anywhere in the component; [None] stands for that crash. *)
Definition dispatch (s : FormState) (ev : Event) : option FormState :=
  match handle s ev with
  | (log, Normal _) => Some (commit s log)
  | (_, TypeError) => None
  end.

Fixpoint run (s : FormState) (evs : list Event) : option FormState :=
  match evs with
  | [] => Some s
  | ev :: evs' => s' ← dispatch s ev ; run s' evs'
  end.

(** The [onSubmit] invocations in a log, with their arguments. *)
Definition onSubmitCalls (log : list Effect)
  : list (jsstring * jsstring * jsstring * jsstring) :=
  omap (λ e, match e with
             | OnSubmit q e p m => Some (q, e, p, m)
             | _ => None
             end) log.

(** The provider and the model agree when the model is one of the values
    listed for the provider in the catalog. *)
Definition consistent (s : FormState) : Prop :=
  match modelOptions !! provider s with
  | Some options => model s ∈ value <$> options
  | None => False
  end.

Global Instance consistent_dec (s : FormState) : Decision (consistent s).
Proof.
  unfold consistent. destruct (modelOptions !! provider s); apply _.
Defined.

(** A model selection is one the page offers when its value is among the
    items rendered for the current provider (lines 205-216); every other
    event is unconstrained. *)
Definition offered (s : FormState) (ev : Event) : bool :=
  match ev with
  | ModelValueChange v =>
      match renderModelItems s with
      | Some items => bool_decide (v ∈ items)
      | None => false
      end
  | _ => true
  end.

(** Every model selection along [evs], started in [s], is an offered one. *)
Fixpoint modelsOffered (s : FormState) (evs : list Event) : bool :=
  match evs with
  | [] => true
  | ev :: evs' =>
      offered s ev &&
      match dispatch s ev with
      | Some s' => modelsOffered s' evs'
      | None => true
      end
  end.

(** The default action of the Enter key in a text area, which the browser
    performs when the key handler has not cancelled it: the selected range
    is replaced by a line feed and the change listener runs with the new
    text. *)
Definition insertLineBreak (selectionStart selectionEnd : nat)
    (text : jsstring) : jsstring :=
  take selectionStart text ++ [0x0A] ++ drop selectionEnd text.

Definition pressEnter (selectionStart selectionEnd : nat)
    (s : FormState) (e : KeyboardEvent) : list Event :=
  TextareaKeyDown e ::
  if bool_decide (PreventDefault ∈ (handleInternalKeyDown s e).1) then []
  else [TextareaChange
          (insertLineBreak selectionStart selectionEnd (internalInputValue s))].

(** The derived value of the specification: the trimmed draft has positive
    length and no request is in flight. *)
Definition canSubmit (props : Props) (s : FormState) : bool :=
  (0 <? length (trim (internalInputValue s)))%nat && negb (isLoading props).


(** ** The page as a source of events *)

(** The three selectors raise a change only with the value of one of the
    items they render (lines 137-154, 168-191 and 205-216); the other
    listeners are not constrained. *)
Definition raises (view : View) (ev : Event) : bool :=
  match ev with
  | EffortValueChange v => bool_decide (v ∈ effortItems view)
  | ProviderValueChange v => bool_decide (v ∈ providerItems view)
  | ModelValueChange v => bool_decide (v ∈ modelItems view)
  | _ => true
  end.

(** Each event of [evs], paired with the properties of the render it is
    raised in, is one that the page rendered for the state reached so far
    can raise.  Nothing is asked of what follows a transition that does not
    complete. *)
Fixpoint pageRaises (s : FormState) (evs : list (Props * Event)) : bool :=
  match evs with
  | [] => true
  | (props, ev) :: evs' =>
      match render props s with
      | Some view =>
          raises view ev &&
          match dispatch s ev with
          | Some s' => pageRaises s' evs'
          | None => true
          end
      | None => false
      end
  end.

(** The effects performed along a run, in order, up to and including the
    log of a listener that raises. *)
Fixpoint transcript (s : FormState) (evs : list Event) : list Effect :=
  match evs with
  | [] => []
  | ev :: evs' =>
      (handle s ev).1 ++
      match dispatch s ev with
      | Some s' => transcript s' evs'
      | None => []
      end
  end.

(** A request handed to [onSubmit] is well formed when its query has a
    visible character, its effort is one of the three levels on offer and
    its model is listed for its provider in the catalog. *)
Definition wellFormedRequest
    (call : jsstring * jsstring * jsstring * jsstring) : Prop :=
  let '(q, e, p, m) := call in
  trim q ≠ [] ∧
  e ∈ [js "low"; js "medium"; js "high"] ∧
  consistent {| internalInputValue := q; effort := e;
                provider := p; model := m |}.

(** A change event that carries a text with a visible character. *)
Definition visibleChange (ev : Event) : bool :=
  match ev with
  | TextareaChange targetValue => truthy (trim targetValue)
  | _ => false
  end.

(** How many such events a list holds. *)
Definition visibleChanges (evs : list Event) : nat :=
  length (List.filter visibleChange evs).

(** The events that run the submit handler: the submission of the form
    (line 80) and Enter without Shift in the text area (line 70). *)
Definition submits (ev : Event) : Prop :=
  match ev with
  | FormSubmit _ => True
  | TextareaKeyDown e => key e = js "Enter" ∧ shiftKey e = false
  | _ => False
  end.

Global Instance submits_dec (ev : Event) : Decision (submits ev).
Proof. destruct ev; simpl; apply _. Defined.

(** The state invariant of the page: a listed effort and a consistent
    pair of provider and model. *)
Definition sound (s : FormState) : Prop :=
  effort s ∈ [js "low"; js "medium"; js "high"] ∧ consistent s.

(** Whether the draft of a state is one the submit handler would send. *)
Definition pending (s : FormState) : nat :=
  if truthy (trim (internalInputValue s)) then 1%nat else 0%nat.

(** The pairs of a provider and one of its models, as the catalog lists
    them. *)
Definition catalogPairs : list (jsstring * jsstring) :=
  '(p, options) ← map_to_list modelOptions ;
  (λ o, (p, value o)) <$> options.

(** * Properties *)

(** ** Trimming *)

Lemma trimStart_nil (s : jsstring) :
  trimStart s = [] ↔ forallb isWhiteSpace s = true.
Proof.
  induction s as [|c rest IH]; simpl; [done|].
  destruct (isWhiteSpace c); simpl; [exact IH|].
  split; discriminate.
Qed.

Lemma trimStart_head (s : jsstring) (c : N) (rest : jsstring) :
  trimStart s = c :: rest → isWhiteSpace c = false.
Proof.
  induction s as [|d s' IH]; simpl; [discriminate|].
  destruct (isWhiteSpace d) eqn:Hd; [exact IH|].
  intros [= <- _]. exact Hd.
Qed.

Lemma forallb_snoc_false (l : jsstring) (c : N) :
  isWhiteSpace c = false → forallb isWhiteSpace (l ++ [c]) = false.
Proof.
  intros Hc. rewrite forallb_app. simpl. rewrite Hc.
  by rewrite andb_false_r.
Qed.

(** The trimmed text is empty exactly when the text is white space only. *)
Lemma trim_nil (s : jsstring) :
  trim s = [] ↔ forallb isWhiteSpace s = true.
Proof.
  rewrite <- trimStart_nil. unfold trim, trimEnd.
  destruct (trimStart s) as [|c rest] eqn:Hs; [done|].
  split; [|discriminate].
  intros Hrev. exfalso.
  apply (f_equal reverse) in Hrev. rewrite reverse_involutive in Hrev.
  change (reverse []) with (@nil N) in Hrev.
  apply trimStart_nil in Hrev.
  rewrite reverse_cons in Hrev.
  rewrite forallb_snoc_false in Hrev; [discriminate|].
  by eapply trimStart_head.
Qed.

Lemma truthy_false (s : jsstring) : negb (truthy s) = true ↔ s = [].
Proof. destruct s; simpl; split; congruence. Qed.

Lemma truthy_length (s : jsstring) : truthy s = (0 <? length s)%nat.
Proof. by destruct s. Qed.

Example trim_hello : trim (js "  hello  ") = js "hello".
Proof. reflexivity. Qed.

Example trim_blank :
  trim (js "") = [] ∧ trim (js " ") = [] ∧ trim [0x0A; 0x09] = [].
Proof. by repeat split. Qed.

(** ** The catalog *)

Lemma modelOptions_dom :
  dom modelOptions = {[ js "gemini"; js "openai"; js "qwen"; js "grok" ]}.
Proof. by vm_compute. Qed.

(** Every provider of the catalog lists at least one model. *)
Lemma modelOptions_nonempty (p : jsstring) (options : list ModelOption) :
  modelOptions !! p = Some options → options ≠ [].
Proof.
  intros Hp Hnil. subst options.
  apply elem_of_dom_2 in Hp as Hdom. rewrite modelOptions_dom in Hdom.
  set_unfold in Hdom.
  destruct Hdom as [[[->| ->]| ->]| ->]; vm_compute in Hp; discriminate.
Qed.

Lemma lookup_outside (p : jsstring) :
  p ∉ dom modelOptions → modelOptions !! p = None.
Proof. apply not_elem_of_dom. Qed.

(** ** Running a handler *)

Lemma handleProviderChange_key (p : jsstring) (first : ModelOption)
    (rest : list ModelOption) :
  modelOptions !! p = Some (first :: rest) →
  handleProviderChange p = ([SetProvider p; SetModel (value first)], Normal ()).
Proof. intros Hp. unfold handleProviderChange. by rewrite Hp. Qed.

Lemma handleProviderChange_other (p : jsstring) :
  modelOptions !! p = None →
  handleProviderChange p = ([SetProvider p], TypeError).
Proof. intros Hp. unfold handleProviderChange. by rewrite Hp. Qed.

Lemma handleInternalSubmit_blank (s : FormState) (e : option FormEvent) :
  trim (internalInputValue s) = [] →
  handleInternalSubmit s e =
    (if e is Some _ then [PreventDefault] else [], Normal ()).
Proof.
  intros Hblank. unfold handleInternalSubmit. rewrite Hblank.
  by destruct e.
Qed.

Lemma handleInternalSubmit_text (s : FormState) (e : option FormEvent) :
  trim (internalInputValue s) ≠ [] →
  handleInternalSubmit s e =
    ((if e is Some _ then [PreventDefault] else []) ++
     [OnSubmit (internalInputValue s) (effort s) (provider s) (model s);
      SetInternalInputValue (js "")], Normal ()).
Proof.
  intros Htext. unfold handleInternalSubmit.
  destruct (trim (internalInputValue s)) as [|c rest]; [done|].
  by destruct e.
Qed.

(** The key handler on unshifted Enter is the submit handler called from
    the form. *)
Lemma handleInternalKeyDown_enter (s : FormState) (e : KeyboardEvent) :
  key e = js "Enter" → shiftKey e = false →
  handleInternalKeyDown s e = handleInternalSubmit s (Some SubmitEvent).
Proof.
  intros Hkey Hshift. unfold handleInternalKeyDown.
  rewrite bool_decide_eq_true_2, Hshift by done. simpl.
  unfold handleInternalSubmit.
  by destruct (negb (truthy (trim (internalInputValue s)))).
Qed.

Lemma handleInternalKeyDown_idle (s : FormState) (e : KeyboardEvent) :
  key e ≠ js "Enter" ∨ shiftKey e = true →
  handleInternalKeyDown s e = ([], Normal ()).
Proof.
  intros Hidle. unfold handleInternalKeyDown.
  destruct Hidle as [Hkey| ->].
  - by rewrite bool_decide_eq_false_2.
  - by rewrite andb_false_r.
Qed.

(** Logs that only touch the draft leave the selections alone. *)
Lemma commit_submit_log (s : FormState) (pre : list Effect) :
  pre = [] ∨ pre = [PreventDefault] →
  commit s (pre ++
    [OnSubmit (internalInputValue s) (effort s) (provider s) (model s);
     SetInternalInputValue (js "")]) =
  {| internalInputValue := js ""; effort := effort s;
     provider := provider s; model := model s |}.
Proof. by intros [-> | ->]. Qed.

Lemma dispatch_submit_text (s : FormState) (e : FormEvent) :
  trim (internalInputValue s) ≠ [] →
  dispatch s (FormSubmit e) =
    Some {| internalInputValue := js ""; effort := effort s;
            provider := provider s; model := model s |}.
Proof.
  intros Htext. unfold dispatch. simpl.
  rewrite handleInternalSubmit_text by done.
  by rewrite commit_submit_log by auto.
Qed.

Lemma dispatch_submit_blank (s : FormState) (e : FormEvent) :
  trim (internalInputValue s) = [] → dispatch s (FormSubmit e) = Some s.
Proof.
  intros Hblank. unfold dispatch. simpl.
  by rewrite handleInternalSubmit_blank.
Qed.

Lemma consistent_selections (s s' : FormState) :
  provider s' = provider s → model s' = model s →
  consistent s → consistent s'.
Proof. unfold consistent. by intros -> ->. Qed.

Lemma consistent_first (p : jsstring) (first : ModelOption)
    (rest : list ModelOption) (draft eff : jsstring) :
  modelOptions !! p = Some (first :: rest) →
  consistent {| internalInputValue := draft; effort := eff;
                provider := p; model := value first |}.
Proof. intros Hp. unfold consistent. simpl. rewrite Hp. by left. Qed.

Lemma consistent_initial : consistent initialState.
Proof. by vm_compute; right; left. Qed.

(** A provider selection that completes was made on a catalog key. *)
Lemma dispatch_provider (s s' : FormState) (p : jsstring) :
  dispatch s (ProviderValueChange p) = Some s' →
  ∃ first rest,
    modelOptions !! p = Some (first :: rest) ∧
    s' = {| internalInputValue := internalInputValue s; effort := effort s;
            provider := p; model := value first |}.
Proof.
  unfold dispatch. simpl. unfold handleProviderChange.
  destruct (modelOptions !! p) as [[|first rest]|] eqn:Hp; simpl;
    try discriminate.
  intros [= <-]. by exists first, rest.
Qed.

(** One transition keeps the selections consistent, as long as a model
    selection picks one of the items on offer. *)
Lemma dispatch_consistent (s s' : FormState) (ev : Event) :
  consistent s → offered s ev = true → dispatch s ev = Some s' →
  consistent s'.
Proof.
  intros Hs Hoff Hstep. destruct ev as [t|e|e|v|v|v| |].
  - injection Hstep as <-. by apply (consistent_selections s).
  - destruct (decide (key e = js "Enter" ∧ shiftKey e = false))
      as [[Hkey Hshift]|Hidle].
    + unfold dispatch in Hstep. simpl in Hstep.
      rewrite handleInternalKeyDown_enter in Hstep by done.
      change (dispatch s (FormSubmit SubmitEvent) = Some s') in Hstep.
      destruct (decide (trim (internalInputValue s) = [])) as [Hb|Ht].
      * rewrite dispatch_submit_blank in Hstep by done. by injection Hstep as <-.
      * rewrite dispatch_submit_text in Hstep by done. injection Hstep as <-.
        by apply (consistent_selections s).
    + unfold dispatch in Hstep. simpl in Hstep.
      rewrite handleInternalKeyDown_idle in Hstep.
      * by injection Hstep as <-.
      * destruct (decide (key e = js "Enter")); [right|by left].
        destruct (shiftKey e); [done|]. by destruct Hidle.
  - destruct (decide (trim (internalInputValue s) = [])) as [Hb|Ht].
    + rewrite dispatch_submit_blank in Hstep by done. by injection Hstep as <-.
    + rewrite dispatch_submit_text in Hstep by done. injection Hstep as <-.
      by apply (consistent_selections s).
  - injection Hstep as <-. by apply (consistent_selections s).
  - apply dispatch_provider in Hstep as (first & rest & Hp & ->).
    by eapply consistent_first.
  - injection Hstep as <-. simpl in Hoff. unfold renderModelItems in Hoff.
    unfold consistent in *. simpl.
    destruct (modelOptions !! provider s); [|done].
    by apply bool_decide_eq_true in Hoff.
  - by injection Hstep as <-.
  - injection Hstep as <-. apply consistent_initial.
Qed.

Lemma run_consistent (evs : list Event) (s s' : FormState) :
  consistent s → modelsOffered s evs = true → run s evs = Some s' →
  consistent s'.
Proof.
  revert s. induction evs as [|ev evs IH]; intros s Hs Hoff Hrun; simpl in *.
  - by injection Hrun as <-.
  - apply andb_true_iff in Hoff as [Hev Hrest].
    destruct (dispatch s ev) as [s1|] eqn:Hstep; [|discriminate].
    simpl in Hrun. eapply (IH s1); eauto using dispatch_consistent.
Qed.

(** * The claims *)

(** C1. For every provider [p] that is a key of the catalog, the provider
    listener enqueues exactly two updates, [provider := p] and
    [model := ] the value of the first model listed for [p]; React commits
    them as one transition, so the only state that follows has both fields
    set, the model being a member of the list of [p]. *)
Theorem selectProvider_sets_default_model (s : FormState) (p : jsstring) :
  p ∈ dom modelOptions →
  ∃ first rest,
    modelOptions !! p = Some (first :: rest) ∧
    handleProviderChange p =
      ([SetProvider p; SetModel (value first)], Normal ()) ∧
    dispatch s (ProviderValueChange p) =
      Some {| internalInputValue := internalInputValue s; effort := effort s;
              provider := p; model := value first |} ∧
    value first ∈ value <$> first :: rest ∧
    consistent {| internalInputValue := internalInputValue s;
                  effort := effort s; provider := p; model := value first |}.
Proof.
  intros Hdom. apply elem_of_dom in Hdom as [options Hp].
  destruct options as [|first rest].
  { by apply modelOptions_nonempty in Hp. }
  exists first, rest. split; [done|].
  pose proof (handleProviderChange_key p first rest Hp) as Hhandler.
  split; [done|]. split.
  - unfold dispatch. simpl. by rewrite Hhandler.
  - split; [by left|]. by eapply consistent_first.
Qed.

Lemma selectProvider_sets_default_model_witness :
  js "openai" ∈ dom modelOptions ∧
  ∃ first rest,
    modelOptions !! js "openai" = Some (first :: rest) ∧
    handleProviderChange (js "openai") =
      ([SetProvider (js "openai"); SetModel (value first)], Normal ()) ∧
    dispatch initialState (ProviderValueChange (js "openai")) =
      Some {| internalInputValue := js ""; effort := js "medium";
              provider := js "openai"; model := value first |} ∧
    value first ∈ value <$> first :: rest ∧
    consistent {| internalInputValue := js ""; effort := js "medium";
                  provider := js "openai"; model := value first |}.
Proof.
  assert (Hdom : js "openai" ∈ dom modelOptions).
  { apply elem_of_dom. vm_compute. eauto. }
  split; [exact Hdom|].
  exact (selectProvider_sets_default_model initialState (js "openai") Hdom).
Defined.

(** C2, as the code has it.  Starting from the initial state, after any
    sequence of listener invocations that runs to completion and in which
    every model selection picks an item rendered for the provider current
    at that moment, [model] is one of the values the catalog lists for
    [provider]. *)
Theorem offered_selections_stay_consistent (evs : list Event) (s : FormState) :
  modelsOffered initialState evs = true →
  run initialState evs = Some s →
  consistent s.
Proof. apply run_consistent, consistent_initial. Qed.

Lemma offered_selections_stay_consistent_witness :
  consistent {| internalInputValue := js ""; effort := js "high";
                provider := js "openai"; model := js "gpt-4o" |}.
Proof.
  apply (offered_selections_stay_consistent
           [ ProviderValueChange (js "openai");
             ModelValueChange (js "gpt-4o");
             EffortValueChange (js "high");
             TextareaChange (js "who won?");
             FormSubmit SubmitEvent ]).
  - vm_compute. reflexivity.
  - vm_compute. reflexivity.
Defined.

(** C2, as stated, fails: the model listener stores whatever value it is
    given, so selecting a model of another provider leaves a pair the
    catalog does not contain. *)
Lemma arbitrary_model_breaks_consistency :
  run initialState [ModelValueChange (js "gpt-4o")] =
    Some {| internalInputValue := js ""; effort := js "medium";
            provider := js "gemini"; model := js "gpt-4o" |} ∧
  ¬ consistent {| internalInputValue := js ""; effort := js "medium";
                  provider := js "gemini"; model := js "gpt-4o" |}.
Proof.
  split; [reflexivity|].
  apply (bool_decide_eq_false_1 _). vm_compute. reflexivity.
Qed.

(** C3, as the code has it.  When the trimmed draft is not empty, the
    submit handler invokes [onSubmit] exactly once, with the draft as it
    was typed (not trimmed) and the current effort, provider and model, and
    the committed state has an empty draft. *)
Theorem submit_passes_draft_as_typed (s : FormState) (e : option FormEvent) :
  trim (internalInputValue s) ≠ [] →
  (handleInternalSubmit s e).2 = Normal () ∧
  onSubmitCalls (handleInternalSubmit s e).1 =
    [(internalInputValue s, effort s, provider s, model s)] ∧
  internalInputValue (commit s (handleInternalSubmit s e).1) = js "".
Proof.
  intros Htext. rewrite handleInternalSubmit_text by done. simpl.
  split; [done|]. split.
  - by destruct e.
  - rewrite commit_submit_log; [done|]. destruct e; auto.
Qed.

Lemma submit_passes_draft_as_typed_witness :
  let s := {| internalInputValue := js "  hello  "; effort := js "medium";
              provider := js "gemini";
              model := js "gemini-2.5-flash-preview-04-17" |} in
  trim (internalInputValue s) ≠ [] ∧
  (handleInternalSubmit s None).2 = Normal () ∧
  onSubmitCalls (handleInternalSubmit s None).1 =
    [(js "  hello  ", js "medium", js "gemini",
      js "gemini-2.5-flash-preview-04-17")] ∧
  internalInputValue (commit s (handleInternalSubmit s None).1) = js "".
Proof.
  intros s.
  assert (Htext : trim (internalInputValue s) ≠ []).
  { vm_compute. discriminate. }
  split; [exact Htext|].
  exact (submit_passes_draft_as_typed s None Htext).
Defined.

(** C3, as stated, fails: with the draft ["  hello  "] the callback
    receives the draft with its blanks, not the trimmed ["hello"]. *)
Lemma submit_does_not_trim :
  let s := {| internalInputValue := js "  hello  "; effort := js "medium";
              provider := js "gemini";
              model := js "gemini-2.5-flash-preview-04-17" |} in
  trim (internalInputValue s) = js "hello" ∧
  onSubmitCalls (handleInternalSubmit s None).1 =
    [(js "  hello  ", js "medium", js "gemini",
      js "gemini-2.5-flash-preview-04-17")] ∧
  onSubmitCalls (handleInternalSubmit s None).1 ≠
    [(trim (internalInputValue s), effort s, provider s, model s)].
Proof.
  intros s. split; [reflexivity|]. split; [reflexivity|].
  vm_compute. discriminate.
Qed.

(** C4. When the trimmed draft is empty, the submit handler completes
    normally without invoking [onSubmit], and the state, draft included,
    is what it was. *)
Theorem blank_submit_is_noop (s : FormState) (e : option FormEvent) :
  trim (internalInputValue s) = [] →
  (handleInternalSubmit s e).2 = Normal () ∧
  onSubmitCalls (handleInternalSubmit s e).1 = [] ∧
  commit s (handleInternalSubmit s e).1 = s ∧
  dispatch s (FormSubmit SubmitEvent) = Some s.
Proof.
  intros Hblank. rewrite handleInternalSubmit_blank by done.
  rewrite dispatch_submit_blank by done.
  by destruct e.
Qed.

Lemma blank_submit_is_noop_witness :
  let s := {| internalInputValue := [0x0A; 0x09]; effort := js "low";
              provider := js "qwen"; model := js "qwen-max" |} in
  trim (internalInputValue s) = [] ∧
  (handleInternalSubmit s None).2 = Normal () ∧
  onSubmitCalls (handleInternalSubmit s None).1 = [] ∧
  commit s (handleInternalSubmit s None).1 = s ∧
  dispatch s (FormSubmit SubmitEvent) = Some s.
Proof.
  intros s. split; [reflexivity|].
  apply (blank_submit_is_noop s None). reflexivity.
Defined.

(** While a request is in flight the page shows the cancel button, and the
    disabled flag computed for the submit button is set. *)
Lemma loading_hides_submit (props : Props) (s : FormState) :
  isLoading props = true →
  renderActionButton props s = CancelButton ∧ isSubmitDisabled props s = true.
Proof.
  intros Hload. unfold renderActionButton, isSubmitDisabled. rewrite Hload.
  by rewrite orb_true_r.
Qed.

(** C5, evaluated on the code.  With [isLoading = true] and the draft
    ["hello"], the page shows the cancel button and the submit flag is
    disabled, yet a bare Enter in the text area invokes [onSubmit] and
    clears the draft: the key handler never reads [isLoading]. *)
Theorem enter_submits_while_loading :
  let props := {| isLoading := true; hasHistory := true |} in
  let s := {| internalInputValue := js "hello"; effort := js "medium";
              provider := js "gemini";
              model := js "gemini-2.5-flash-preview-04-17" |} in
  let enter := {| key := js "Enter"; shiftKey := false; ctrlKey := false;
                  altKey := false; metaKey := false |} in
  renderActionButton props s = CancelButton ∧
  isSubmitDisabled props s = true ∧
  canSubmit props s = false ∧
  onSubmitCalls (handle s (TextareaKeyDown enter)).1 =
    [(js "hello", js "medium", js "gemini",
      js "gemini-2.5-flash-preview-04-17")] ∧
  dispatch s (TextareaKeyDown enter) =
    Some {| internalInputValue := js ""; effort := js "medium";
            provider := js "gemini";
            model := js "gemini-2.5-flash-preview-04-17" |}.
Proof. by repeat split. Qed.

(** C6, as the code has it.  For a key event whose key is Enter: without
    Shift, whatever the other modifiers, the key handler is the handler the
    form runs on submission, with the same log and the same next state;
    with Shift it performs nothing and does not cancel the default action,
    so the line break the text area inserts reaches the draft through the
    change listener and the selections stay as they are. *)
Theorem enter_key_behaviour (s : FormState) (e : KeyboardEvent)
    (selectionStart selectionEnd : nat) :
  key e = js "Enter" →
  if shiftKey e then
    handleInternalKeyDown s e = ([], Normal ()) ∧
    run s (pressEnter selectionStart selectionEnd s e) =
      Some {| internalInputValue :=
                insertLineBreak selectionStart selectionEnd
                  (internalInputValue s);
              effort := effort s; provider := provider s; model := model s |}
  else
    handleInternalKeyDown s e = handleInternalSubmit s (Some SubmitEvent) ∧
    dispatch s (TextareaKeyDown e) = dispatch s (FormSubmit SubmitEvent) ∧
    run s (pressEnter selectionStart selectionEnd s e) =
      dispatch s (FormSubmit SubmitEvent).
Proof.
  intros Hkey. destruct (shiftKey e) eqn:Hshift.
  - pose proof (handleInternalKeyDown_idle s e (or_intror Hshift)) as Hidle.
    split; [done|].
    unfold pressEnter. rewrite Hidle. simpl.
    unfold dispatch. simpl. by rewrite Hidle.
  - pose proof (handleInternalKeyDown_enter s e Hkey Hshift) as Henter.
    assert (Hstep : dispatch s (TextareaKeyDown e) =
                    dispatch s (FormSubmit SubmitEvent)).
    { unfold dispatch. simpl. by rewrite Henter. }
    split; [done|]. split; [done|].
    unfold pressEnter. rewrite Henter.
    assert (Hprev : PreventDefault ∈ (handleInternalSubmit s (Some SubmitEvent)).1).
    { unfold handleInternalSubmit.
      destruct (negb (truthy (trim (internalInputValue s)))); by left. }
    rewrite bool_decide_eq_true_2 by done.
    simpl. rewrite Hstep. by destruct (dispatch s (FormSubmit SubmitEvent)).
Qed.

Lemma enter_key_behaviour_witness :
  let s := {| internalInputValue := js "ab"; effort := js "medium";
              provider := js "gemini";
              model := js "gemini-2.5-flash-preview-04-17" |} in
  let e := {| key := js "Enter"; shiftKey := true; ctrlKey := false;
              altKey := false; metaKey := false |} in
  handleInternalKeyDown s e = ([], Normal ()) ∧
  run s (pressEnter 1 1 s e) =
    Some {| internalInputValue := [0x61; 0x0A; 0x62]; effort := js "medium";
            provider := js "gemini";
            model := js "gemini-2.5-flash-preview-04-17" |}.
Proof.
  intros s e. apply (enter_key_behaviour s e 1 1). reflexivity.
Defined.

(** C6, as stated, fails: Enter with Control held (and Shift not held) is a
    key press with a modifier, and it submits. *)
Lemma control_enter_submits :
  let s := {| internalInputValue := js "hello"; effort := js "medium";
              provider := js "gemini";
              model := js "gemini-2.5-flash-preview-04-17" |} in
  let e := {| key := js "Enter"; shiftKey := false; ctrlKey := true;
              altKey := false; metaKey := false |} in
  onSubmitCalls (handleInternalKeyDown s e).1 =
    [(js "hello", js "medium", js "gemini",
      js "gemini-2.5-flash-preview-04-17")] ∧
  PreventDefault ∈ (handleInternalKeyDown s e).1 ∧
  run s (pressEnter 5 5 s e) =
    Some {| internalInputValue := js ""; effort := js "medium";
            provider := js "gemini";
            model := js "gemini-2.5-flash-preview-04-17" |}.
Proof. split; [reflexivity|]. split; [by left|reflexivity]. Qed.

(** C7, as the code has it.  On mount the effort is [medium], the provider
    is [gemini] and the model is [gemini-2.5-flash-preview-04-17], which is
    the second model the catalog lists for [gemini]; the pair is
    consistent. *)
Theorem initial_state_defaults :
  effort initialState = js "medium" ∧
  provider initialState = js "gemini" ∧
  model initialState = js "gemini-2.5-flash-preview-04-17" ∧
  renderModelItems initialState =
    Some [ js "gemini-2.0-flash"; model initialState;
           js "gemini-2.5-pro-preview-05-06" ] ∧
  consistent initialState.
Proof.
  split; [reflexivity|]. split; [reflexivity|]. split; [reflexivity|].
  split; [by vm_compute|apply consistent_initial].
Qed.

(** C7, as stated, fails: the first model listed for [gemini] is
    [gemini-2.0-flash], and the initial model is another one. *)
Lemma initial_model_is_not_first :
  head <$> modelOptions !! provider initialState =
    Some (Some (mkOption (js "gemini-2.0-flash") (js "2.0 Flash") zap)) ∧
  model initialState ≠ js "gemini-2.0-flash".
Proof. split; [by vm_compute|]. vm_compute. discriminate. Qed.

(** C8. The disabled flag computed at line 76 is the negation of
    [canSubmit], for every draft and either value of [isLoading]; the submit
    button, when rendered, carries that flag, and when the cancel button is
    rendered in its place [canSubmit] is false. *)
Theorem isSubmitDisabled_is_not_canSubmit (props : Props) (s : FormState) :
  isSubmitDisabled props s = negb (canSubmit props s) ∧
  match renderActionButton props s with
  | SubmitButton disabled => disabled = negb (canSubmit props s)
  | CancelButton => canSubmit props s = false
  end.
Proof.
  unfold renderActionButton, isSubmitDisabled, canSubmit.
  rewrite truthy_length.
  destruct (0 <? length (trim (internalInputValue s)))%nat, (isLoading props);
    by split.
Qed.

(** C9. When the trimmed draft is not empty, submission leads to the state
    that differs from the current one in the draft only, which is empty:
    effort, provider and model are kept. *)
Theorem submit_changes_draft_only (s : FormState) (e : FormEvent) :
  trim (internalInputValue s) ≠ [] →
  ∃ s',
    dispatch s (FormSubmit e) = Some s' ∧
    internalInputValue s' = js "" ∧
    effort s' = effort s ∧
    provider s' = provider s ∧
    model s' = model s.
Proof.
  intros Htext. eexists. split; [by apply dispatch_submit_text|]. done.
Qed.

Lemma submit_changes_draft_only_witness :
  let s := {| internalInputValue := js "who won?"; effort := js "high";
              provider := js "grok"; model := js "grok-beta" |} in
  ∃ s',
    dispatch s (FormSubmit SubmitEvent) = Some s' ∧
    internalInputValue s' = js "" ∧
    effort s' = js "high" ∧
    provider s' = js "grok" ∧
    model s' = js "grok-beta".
Proof.
  intros s. apply (submit_changes_draft_only s SubmitEvent).
  vm_compute. discriminate.
Defined.

(** C10. For a provider name that is not one of the four keys of the
    catalog, the lookup finds no entry and the provider listener ends with
    a [TypeError] after enqueueing the provider update alone, so the
    transition does not complete. *)
Theorem selectProvider_fails_outside_catalog (s : FormState) (p : jsstring) :
  p ∉ ({[ js "gemini"; js "openai"; js "qwen"; js "grok" ]} : gset jsstring) →
  modelOptions !! p = None ∧
  handleProviderChange p = ([SetProvider p], TypeError) ∧
  dispatch s (ProviderValueChange p) = None.
Proof.
  rewrite <- modelOptions_dom. intros Hout%lookup_outside.
  pose proof (handleProviderChange_other p Hout) as Hhandler.
  split; [done|]. split; [done|].
  unfold dispatch. simpl. by rewrite Hhandler.
Qed.

Lemma selectProvider_fails_outside_catalog_witness :
  modelOptions !! js "anthropic" = None ∧
  handleProviderChange (js "anthropic") =
    ([SetProvider (js "anthropic")], TypeError) ∧
  dispatch initialState (ProviderValueChange (js "anthropic")) = None.
Proof.
  apply (selectProvider_fails_outside_catalog initialState (js "anthropic")).
  apply (bool_decide_eq_false_1 _). vm_compute. reflexivity.
Defined.

(** * Further properties of the component *)

(** ** Trimming, continued *)

Lemma forallb_reverse (l : jsstring) :
  forallb isWhiteSpace (reverse l) = forallb isWhiteSpace l.
Proof.
  induction l as [|c l IH]; [done|].
  rewrite reverse_cons, forallb_app, IH. simpl.
  rewrite andb_true_r. apply andb_comm.
Qed.

Lemma forallb_false_visible (l : jsstring) :
  forallb isWhiteSpace l = false ↔ ∃ c, c ∈ l ∧ isWhiteSpace c = false.
Proof.
  induction l as [|d l IH]; simpl.
  - split; [discriminate|]. intros (c & Hc & _). by apply elem_of_nil in Hc.
  - destruct (isWhiteSpace d) eqn:Hd; simpl.
    + rewrite IH. split.
      * intros (c & Hc & Hv). exists c. split; [by right|done].
      * intros (c & Hc & Hv). apply elem_of_cons in Hc as [->|Hc].
        -- congruence.
        -- by exists c.
    + split; [|done]. intros _. exists d. split; [by left|done].
Qed.

Lemma trimStart_split (s : jsstring) :
  ∃ pre, s = pre ++ trimStart s ∧ forallb isWhiteSpace pre = true.
Proof.
  induction s as [|c rest (pre & Hsplit & Hpre)]; simpl.
  - by exists [].
  - destruct (isWhiteSpace c) eqn:Hc.
    + exists (c :: pre). simpl. rewrite Hc, Hpre. split; [|done].
      by rewrite <- Hsplit.
    + by exists [].
Qed.

Lemma trimEnd_split (s : jsstring) :
  ∃ post, s = trimEnd s ++ post ∧ forallb isWhiteSpace post = true.
Proof.
  destruct (trimStart_split (reverse s)) as (pre & Hsplit & Hpre).
  exists (reverse pre). split.
  - apply (f_equal reverse) in Hsplit.
    by rewrite reverse_involutive, reverse_app in Hsplit.
  - by rewrite forallb_reverse.
Qed.

(** ** What one listener does *)

Lemma onSubmitCalls_app (l1 l2 : list Effect) :
  onSubmitCalls (l1 ++ l2) = onSubmitCalls l1 ++ onSubmitCalls l2.
Proof. apply omap_app. Qed.

Lemma handleProviderChange_calls (p : jsstring) :
  onSubmitCalls (handleProviderChange p).1 = [].
Proof.
  unfold handleProviderChange.
  by destruct (modelOptions !! p) as [[|first rest]|].
Qed.

Lemma handle_submits (s : FormState) (ev : Event) :
  submits ev → handle s ev = handleInternalSubmit s (Some SubmitEvent).
Proof.
  destruct ev as [t|e|[]|v|v|v| |]; simpl; try done.
  intros [Hkey Hshift]. by apply handleInternalKeyDown_enter.
Qed.

Lemma handle_calls_other (s : FormState) (ev : Event) :
  ¬ submits ev → onSubmitCalls (handle s ev).1 = [].
Proof.
  destruct ev as [t|e|f|v|v|v| |]; simpl; intros Hother; try done.
  - rewrite handleInternalKeyDown_idle; [done|].
    destruct (decide (key e = js "Enter")); [right|by left].
    destruct (shiftKey e); [done|]. by destruct Hother.
  - apply handleProviderChange_calls.
Qed.

(** A listener either makes no call to [onSubmit], or it is the submit
    handler running on a draft with a visible character. *)
Lemma handle_calls (s : FormState) (ev : Event) :
  onSubmitCalls (handle s ev).1 = [] ∨
  (submits ev ∧ trim (internalInputValue s) ≠ [] ∧
   handle s ev =
     ([PreventDefault;
       OnSubmit (internalInputValue s) (effort s) (provider s) (model s);
       SetInternalInputValue (js "")], Normal ())).
Proof.
  destruct (decide (submits ev)) as [Hsub|Hother].
  - rewrite (handle_submits s ev Hsub).
    destruct (decide (trim (internalInputValue s) = [])) as [Hb|Ht].
    + left. by rewrite handleInternalSubmit_blank.
    + right. by rewrite handleInternalSubmit_text.
  - left. by apply handle_calls_other.
Qed.

(** A listener completes unless it is a provider selection the catalog
    does not know. *)
Lemma handle_normal (s : FormState) (ev : Event) :
  (∀ p, ev = ProviderValueChange p → p ∈ dom modelOptions) →
  (handle s ev).2 = Normal ().
Proof.
  intros Hkeys. destruct (handle_calls s ev) as [_|(_ & _ & ->)]; [|done].
  destruct ev as [t|e|f|v|v|v| |]; simpl; try done.
  - unfold handleInternalKeyDown, handleInternalSubmit.
    by destruct (bool_decide (key e = js "Enter") && negb (shiftKey e)),
      (negb (truthy (trim (internalInputValue s)))).
  - unfold handleInternalSubmit.
    by destruct (negb (truthy (trim (internalInputValue s)))).
  - pose proof (Hkeys v eq_refl) as Hv.
    apply elem_of_dom in Hv as [options Hv].
    destruct options as [|first rest].
    { by apply modelOptions_nonempty in Hv. }
    by rewrite (handleProviderChange_key v first rest Hv).
Qed.

Lemma dispatch_provider_key (s : FormState) (p : jsstring)
    (first : ModelOption) (rest : list ModelOption) :
  modelOptions !! p = Some (first :: rest) →
  dispatch s (ProviderValueChange p) =
    Some {| internalInputValue := internalInputValue s; effort := effort s;
            provider := p; model := value first |}.
Proof.
  intros Hp. unfold dispatch. simpl.
  by rewrite (handleProviderChange_key p first rest Hp).
Qed.

(** The state a completed transition leads to, event by event. *)
Lemma dispatch_shape (s s' : FormState) (ev : Event) :
  dispatch s ev = Some s' →
  match ev with
  | TextareaChange t => s' = applyEffect s (SetInternalInputValue t)
  | TextareaKeyDown _ | FormSubmit _ =>
      s' = s ∨
      (trim (internalInputValue s) ≠ [] ∧
       s' = applyEffect s (SetInternalInputValue (js "")))
  | EffortValueChange v => s' = applyEffect s (SetEffort v)
  | ProviderValueChange p =>
      ∃ first rest,
        modelOptions !! p = Some (first :: rest) ∧
        s' = applyEffect (applyEffect s (SetProvider p))
               (SetModel (value first))
  | ModelValueChange v => s' = applyEffect s (SetModel v)
  | CancelClick => s' = s
  | NewSearchClick => s' = initialState
  end.
Proof.
  intros Hstep.
  destruct (decide (submits ev)) as [Hsub|Hother].
  - assert (Hform : dispatch s (FormSubmit SubmitEvent) = Some s').
    { unfold dispatch in *. simpl. by rewrite <- (handle_submits s ev Hsub). }
    assert (Hcases : s' = s ∨
        (trim (internalInputValue s) ≠ [] ∧
         s' = applyEffect s (SetInternalInputValue (js "")))).
    { destruct (decide (trim (internalInputValue s) = [])) as [Hb|Ht].
      - rewrite dispatch_submit_blank in Hform by done. left. congruence.
      - rewrite dispatch_submit_text in Hform by done. right.
        split; [done|]. by injection Hform as <-. }
    by destruct ev.
  - destruct ev as [t|e|f|v|v|v| |]; simpl in Hother; try done.
    + by injection Hstep as <-.
    + left. unfold dispatch in Hstep. simpl in Hstep.
      rewrite handleInternalKeyDown_idle in Hstep.
      * by injection Hstep as <-.
      * destruct (decide (key e = js "Enter")); [right|by left].
        destruct (shiftKey e); [done|]. by destruct Hother.
    + by injection Hstep as <-.
    + apply dispatch_provider in Hstep as (first & rest & Hp & ->).
      by exists first, rest.
    + by injection Hstep as <-.
    + by injection Hstep as <-.
    + by injection Hstep as <-.
Qed.

Lemma providerItems_keys (p : jsstring) :
  p ∈ [js "gemini"; js "openai"; js "qwen"; js "grok"] ↔
  p ∈ dom modelOptions.
Proof.
  rewrite modelOptions_dom, !elem_of_cons, elem_of_nil.
  rewrite !elem_of_union, !elem_of_singleton. tauto.
Qed.

Lemma render_items (props : Props) (s : FormState) (view : View) :
  render props s = Some view →
  renderModelItems s = Some (modelItems view) ∧
  providerItems view = [js "gemini"; js "openai"; js "qwen"; js "grok"] ∧
  effortItems view = [js "low"; js "medium"; js "high"].
Proof.
  unfold render. destruct (renderModelItems s) as [items|]; [|done].
  simpl. by intros [= <-].
Qed.

Lemma render_consistent (props : Props) (s : FormState) :
  consistent s → is_Some (render props s).
Proof.
  unfold consistent, render, renderModelItems.
  destruct (modelOptions !! provider s); [eauto|done].
Qed.

Lemma sound_initial : sound initialState.
Proof. split; [by right; left|apply consistent_initial]. Qed.

(** An event the page can raise leads a sound state to a sound state. *)
Lemma page_step (props : Props) (s : FormState) (view : View) (ev : Event) :
  sound s → render props s = Some view → raises view ev = true →
  ∃ s', dispatch s ev = Some s' ∧ sound s'.
Proof.
  intros [Heff Hcons] Hview Hraise.
  apply render_items in Hview as (Hitems & Hprov & Hlevels).
  assert (Hnormal : (handle s ev).2 = Normal ()).
  { apply handle_normal. intros p ->. simpl in Hraise.
    apply bool_decide_eq_true in Hraise. rewrite Hprov in Hraise.
    by apply providerItems_keys. }
  assert (Hstep : ∃ s', dispatch s ev = Some s').
  { unfold dispatch. destruct (handle s ev) as [log [[]|]]; [eauto|done]. }
  destruct Hstep as [s' Hstep]. exists s'. split; [done|]. split.
  - pose proof (dispatch_shape s s' ev Hstep) as Hshape.
    destruct ev as [t|e|f|v|v|v| |]; simpl in Hshape.
    + by subst s'.
    + by destruct Hshape as [->|[_ ->]].
    + by destruct Hshape as [->|[_ ->]].
    + subst s'. simpl in *. apply bool_decide_eq_true in Hraise.
      by rewrite Hlevels in Hraise.
    + by destruct Hshape as (first & rest & _ & ->).
    + by subst s'.
    + by subst s'.
    + subst s'. apply sound_initial.
  - apply (dispatch_consistent s s' ev Hcons); [|done].
    destruct ev as [t|e|f|v|v|v| |]; try done.
    simpl in *. by rewrite Hitems.
Qed.

(** ** Extra properties *)

(** X1. Trimming removes a run of white space from each end and nothing
    else: the text is a white-space prefix, the trimmed text and a
    white-space suffix, and the trimmed text neither starts nor ends with
    white space. *)
Theorem trim_decomposition (s : jsstring) :
  ∃ pre post,
    s = pre ++ trim s ++ post ∧
    forallb isWhiteSpace pre = true ∧
    forallb isWhiteSpace post = true ∧
    (∀ c, head (trim s) = Some c → isWhiteSpace c = false) ∧
    (∀ c, last (trim s) = Some c → isWhiteSpace c = false).
Proof.
  destruct (trimStart_split s) as (pre & Hpre & Hwpre).
  destruct (trimEnd_split (trimStart s)) as (post & Hpost & Hwpost).
  exists pre, post. fold (trim s) in Hpost.
  split; [by rewrite <- Hpost|]. split; [done|]. split; [done|]. split.
  - intros c Hhead. destruct (trim s) as [|d rest]; [done|].
    injection Hhead as ->. simpl in Hpost.
    by eapply trimStart_head.
  - intros c. unfold trim, trimEnd. rewrite last_reverse.
    destruct (trimStart (reverse (trimStart s))) as [|d rest] eqn:Hrev;
      [done|].
    intros [= ->]. by eapply trimStart_head.
Qed.

(** X2. The enabled submit button is rendered exactly when no request is
    in flight and the draft holds a character that is not white space. *)
Theorem submit_enabled_iff_visible_text (props : Props) (s : FormState) :
  renderActionButton props s = SubmitButton false ↔
  isLoading props = false ∧
  ∃ c, c ∈ internalInputValue s ∧ isWhiteSpace c = false.
Proof.
  rewrite <- forallb_false_visible.
  unfold renderActionButton, isSubmitDisabled.
  destruct (isLoading props).
  { split; [done|]. by intros [? _]. }
  rewrite orb_false_r.
  destruct (trim (internalInputValue s)) as [|c rest] eqn:Htrim; simpl.
  - apply trim_nil in Htrim. rewrite Htrim. split; [done|]. by intros [_ ?].
  - split; [|done]. intros _. split; [done|].
    destruct (forallb isWhiteSpace (internalInputValue s)) eqn:Hall; [|done].
    apply trim_nil in Hall. congruence.
Qed.

(** X3. The key handler cancels the default action of a key press only for
    Enter without Shift; for every other key press it performs nothing at
    all, so the key reaches the text area untouched. *)
Theorem keydown_cancels_plain_enter_only (s : FormState) (e : KeyboardEvent) :
  (key e = js "Enter" ∧ shiftKey e = false ∧
   PreventDefault ∈ (handleInternalKeyDown s e).1) ∨
  ((key e ≠ js "Enter" ∨ shiftKey e = true) ∧
   handleInternalKeyDown s e = ([], Normal ())).
Proof.
  destruct (decide (key e = js "Enter")) as [Hkey|Hkey].
  - destruct (shiftKey e) eqn:Hshift.
    + right. split; [by right|].
      apply handleInternalKeyDown_idle. by right.
    + left. split; [done|]. split; [done|].
      rewrite handleInternalKeyDown_enter by done.
      unfold handleInternalSubmit.
      destruct (negb (truthy (trim (internalInputValue s)))); by left.
  - right. split; [by left|].
    apply handleInternalKeyDown_idle. by left.
Qed.

(** X4. Whatever listener runs, a call to [onSubmit] is made only by the
    submit handler on a draft with a visible character, it carries the
    draft, effort, provider and model of the current state, and it is the
    only call of that listener. *)
Theorem onSubmit_only_with_text (s : FormState) (ev : Event)
    (call : jsstring * jsstring * jsstring * jsstring) :
  call ∈ onSubmitCalls (handle s ev).1 →
  submits ev ∧
  trim (internalInputValue s) ≠ [] ∧
  call = (internalInputValue s, effort s, provider s, model s) ∧
  onSubmitCalls (handle s ev).1 = [call].
Proof.
  intros Hcall.
  destruct (handle_calls s ev) as [Hnone|(Hsub & Htext & Hlog)].
  - rewrite Hnone in Hcall. by apply elem_of_nil in Hcall.
  - rewrite Hlog in Hcall |- *. simpl in *.
    apply list_elem_of_singleton in Hcall as ->. done.
Qed.

Lemma onSubmit_only_with_text_witness :
  let s := {| internalInputValue := js " why? "; effort := js "low";
              provider := js "qwen"; model := js "qwen-max" |} in
  let call := (js " why? ", js "low", js "qwen", js "qwen-max") in
  submits (FormSubmit SubmitEvent) ∧
  trim (internalInputValue s) ≠ [] ∧
  call = (internalInputValue s, effort s, provider s, model s) ∧
  onSubmitCalls (handle s (FormSubmit SubmitEvent)).1 = [call].
Proof.
  intros s call. apply (onSubmit_only_with_text s (FormSubmit SubmitEvent)).
  vm_compute. left.
Defined.

(** X5. A listener ends with an exception exactly when it is a provider
    selection for a name that is not a key of the catalog; every other
    listener invocation completes. *)
Theorem listeners_raise_only_on_unknown_provider (s : FormState) (ev : Event) :
  (handle s ev).2 = TypeError ↔
  ∃ p, ev = ProviderValueChange p ∧ p ∉ dom modelOptions.
Proof.
  split.
  - intros Hraise.
    destruct ev as [t|e|f|v|v|v| |];
      try (rewrite handle_normal in Hraise; [discriminate|by intros p [=]]).
    exists v. split; [done|]. intros Hkey.
    rewrite handle_normal in Hraise; [discriminate|].
    by intros p [= <-].
  - intros (p & -> & Hout). simpl.
    by rewrite handleProviderChange_other by by apply lookup_outside.
Qed.

(** X6. Whenever the page renders, the items of the provider selector are
    exactly the keys of the catalog: every provider on offer has models,
    and every provider with models is on offer. *)
Theorem provider_items_are_catalog_keys (props : Props) (s : FormState)
    (view : View) (p : jsstring) :
  render props s = Some view →
  p ∈ providerItems view ↔ p ∈ dom modelOptions.
Proof.
  intros (_ & -> & _)%render_items. apply providerItems_keys.
Qed.

Lemma provider_items_are_catalog_keys_witness :
  js "grok" ∈ [js "gemini"; js "openai"; js "qwen"; js "grok"] ↔
  js "grok" ∈ dom modelOptions.
Proof.
  apply (provider_items_are_catalog_keys
           {| isLoading := false; hasHistory := true |} initialState
           {| textareaValue := js "";
              actionButton := SubmitButton true;
              effortItems := [js "low"; js "medium"; js "high"];
              providerItems := [js "gemini"; js "openai"; js "qwen"; js "grok"];
              modelItems := [js "gemini-2.0-flash";
                             js "gemini-2.5-flash-preview-04-17";
                             js "gemini-2.5-pro-preview-05-06"];
              newSearchButton := true |}).
  vm_compute. reflexivity.
Defined.

Lemma page_run (s : FormState) (evs : list (Props * Event)) :
  sound s → pageRaises s evs = true →
  ∃ s', run s evs.*2 = Some s' ∧ sound s'.
Proof.
  revert s. induction evs as [|[props ev] evs IH]; intros s Hs Hpage.
  - by exists s.
  - simpl in Hpage.
    destruct (render props s) as [view|] eqn:Hview; [|done].
    apply andb_true_iff in Hpage as [Hraise Hrest].
    destruct (page_step props s view ev Hs Hview Hraise) as (s1 & Hstep & Hs1).
    rewrite Hstep in Hrest. simpl. rewrite Hstep. simpl. by apply IH.
Qed.

(** X7. Started on the initial state, every sequence of events the page
    can raise runs to completion: no listener raises, and the state reached
    renders again, with a listed effort and a model of its provider. *)
Theorem page_events_never_crash (evs : list (Props * Event)) :
  pageRaises initialState evs = true →
  ∃ s,
    run initialState evs.*2 = Some s ∧
    sound s ∧
    ∀ props, is_Some (render props s).
Proof.
  intros Hpage.
  destruct (page_run initialState evs sound_initial Hpage) as (s & Hrun & Hs).
  exists s. split; [done|]. split; [done|].
  intros props. apply render_consistent, Hs.
Qed.

Lemma page_events_never_crash_witness :
  ∃ s,
    run initialState
      [ ProviderValueChange (js "qwen"); ModelValueChange (js "qwen-max");
        TextareaChange (js "hi"); NewSearchClick;
        EffortValueChange (js "low") ] = Some s ∧
    sound s ∧
    ∀ props, is_Some (render props s).
Proof.
  apply (page_events_never_crash
    [ (mkProps false false, ProviderValueChange (js "qwen"));
      (mkProps false false, ModelValueChange (js "qwen-max"));
      (mkProps true false, TextareaChange (js "hi"));
      (mkProps true true, NewSearchClick);
      (mkProps false true, EffortValueChange (js "low")) ]).
  vm_compute. reflexivity.
Defined.

Lemma page_requests (s : FormState) (evs : list (Props * Event)) :
  sound s → pageRaises s evs = true →
  Forall wellFormedRequest (onSubmitCalls (transcript s evs.*2)).
Proof.
  revert s. induction evs as [|[props ev] evs IH]; intros s Hs Hpage.
  - constructor.
  - simpl in Hpage.
    destruct (render props s) as [view|] eqn:Hview; [|done].
    apply andb_true_iff in Hpage as [Hraise Hrest].
    destruct (page_step props s view ev Hs Hview Hraise) as (s1 & Hstep & Hs1).
    rewrite Hstep in Hrest. simpl. rewrite Hstep, onSubmitCalls_app.
    apply Forall_app. split; [|by apply IH].
    destruct (handle_calls s ev) as [->|(_ & Htext & ->)]; [constructor|].
    simpl. constructor; [|constructor].
    destruct Hs as [Heff Hcons]. split; [done|]. split; [done|].
    by apply (consistent_selections s).
Qed.

(** X8. Along every sequence of events the page can raise from the
    initial state, each request handed to [onSubmit] has a query with a
    visible character, one of the efforts low, medium and high, a provider
    of the catalog and a model listed for that provider. *)
Theorem requests_are_well_formed (evs : list (Props * Event)) :
  pageRaises initialState evs = true →
  Forall wellFormedRequest (onSubmitCalls (transcript initialState evs.*2)).
Proof. apply page_requests, sound_initial. Qed.

Lemma requests_are_well_formed_witness :
  Forall wellFormedRequest
    [ (js "who?", js "medium", js "openai", js "gpt-4o");
      (js "why?", js "medium", js "grok", js "grok-beta") ].
Proof.
  apply (requests_are_well_formed
    [ (mkProps false false, ProviderValueChange (js "openai"));
      (mkProps false false, ModelValueChange (js "gpt-4o"));
      (mkProps false false, TextareaChange (js "who?"));
      (mkProps false false, FormSubmit SubmitEvent);
      (mkProps true true, ProviderValueChange (js "grok"));
      (mkProps true true, TextareaChange (js "why?"));
      (mkProps true true,
       TextareaKeyDown (mkKey (js "Enter") false false false false)) ]).
  vm_compute. reflexivity.
Defined.

(** X9. After any run of provider selections made on catalog keys, the
    provider is the last one selected and the model is the first model the
    catalog lists for it, whatever was selected before; the draft and the
    effort are untouched. *)
Theorem provider_switching_last_wins (s : FormState) (ps : list jsstring)
    (p : jsstring) (first : ModelOption) (rest : list ModelOption) :
  Forall (λ q, q ∈ dom modelOptions) ps →
  modelOptions !! p = Some (first :: rest) →
  run s (ProviderValueChange <$> ps ++ [p]) =
    Some {| internalInputValue := internalInputValue s; effort := effort s;
            provider := p; model := value first |}.
Proof.
  intros Hps Hp. revert s.
  induction Hps as [|q ps Hq _ IH]; intros s; simpl.
  - by rewrite (dispatch_provider_key s p first rest Hp).
  - apply elem_of_dom in Hq as [[|qfirst qrest] Hq].
    { by apply modelOptions_nonempty in Hq. }
    rewrite (dispatch_provider_key s q qfirst qrest Hq). simpl.
    by rewrite IH.
Qed.

Lemma provider_switching_last_wins_witness :
  run initialState
    (ProviderValueChange <$> [js "openai"; js "grok"; js "openai"] ++ [js "qwen"]) =
    Some {| internalInputValue := js ""; effort := js "medium";
            provider := js "qwen"; model := js "qwen-plus" |}.
Proof.
  apply (provider_switching_last_wins initialState
           [js "openai"; js "grok"; js "openai"] (js "qwen")
           (mkOption (js "qwen-plus") (js "Qwen Plus") zap)
           [mkOption (js "qwen-max") (js "Qwen Max") brain]).
  - repeat constructor; apply elem_of_dom; vm_compute; eauto.
  - vm_compute. reflexivity.
Defined.

Lemma visibleChanges_cons (ev : Event) (evs : list Event) :
  visibleChanges (ev :: evs) =
    ((if visibleChange ev then 1 else 0) + visibleChanges evs)%nat.
Proof. unfold visibleChanges. simpl. by destruct (visibleChange ev). Qed.

(** A transition that sends nothing leaves at most the draft it found or
    the one just typed; one that sends the draft leaves none. *)
Lemma pending_step (s s' : FormState) (ev : Event) :
  dispatch s ev = Some s' →
  (length (onSubmitCalls (handle s ev).1) + pending s' ≤
     pending s + (if visibleChange ev then 1 else 0))%nat.
Proof.
  intros Hstep.
  destruct (handle_calls s ev) as [Hnone|(Hsub & Htext & Hlog)].
  - rewrite Hnone. simpl.
    pose proof (dispatch_shape s s' ev Hstep) as Hshape.
    destruct ev as [t|e|f|v|v|v| |]; simpl in Hshape |- *.
    + subst s'. unfold pending. simpl.
      destruct (truthy (trim t)), (truthy (trim (internalInputValue s))); lia.
    + destruct Hshape as [->|[_ ->]]; unfold pending; simpl; lia.
    + destruct Hshape as [->|[_ ->]]; unfold pending; simpl; lia.
    + subst s'. unfold pending. simpl. lia.
    + destruct Hshape as (first & rest & _ & ->). unfold pending. simpl. lia.
    + subst s'. unfold pending. simpl. lia.
    + subst s'. lia.
    + subst s'. unfold pending. simpl. lia.
  - unfold dispatch in Hstep. rewrite Hlog in Hstep |- *.
    injection Hstep as <-. unfold pending. simpl.
    destruct (trim (internalInputValue s)); [done|]. simpl. lia.
Qed.

(** X10. Along any run, the number of calls to [onSubmit] is at most the
    number of change events that brought a text with a visible character,
    plus one if the run starts on such a draft: a draft is sent at most
    once, and nothing is sent again until new text arrives. *)
Theorem submissions_bounded_by_drafts (s : FormState) (evs : list Event) :
  (length (onSubmitCalls (transcript s evs)) ≤
     pending s + visibleChanges evs)%nat.
Proof.
  revert s. induction evs as [|ev evs IH]; intros s; simpl.
  - lia.
  - rewrite onSubmitCalls_app, length_app, visibleChanges_cons.
    destruct (dispatch s ev) as [s'|] eqn:Hstep.
    + pose proof (pending_step s s' ev Hstep). specialize (IH s'). lia.
    + simpl. destruct (handle_calls s ev) as [->|(_ & _ & Hlog)].
      * simpl. lia.
      * unfold dispatch in Hstep. by rewrite Hlog in Hstep.
Qed.

Lemma consistent_cases (s : FormState) :
  consistent s → (provider s, model s) ∈ catalogPairs.
Proof.
  unfold consistent.
  destruct (modelOptions !! provider s) as [options|] eqn:Hp; [|done].
  intros Hm. apply elem_of_dom_2 in Hp as Hd.
  apply providerItems_keys in Hd.
  rewrite !elem_of_cons, elem_of_nil in Hd.
  destruct Hd as [Hd|[Hd|[Hd|[Hd|[]]]]];
    rewrite Hd in Hp |- *; vm_compute in Hp; injection Hp as <-;
    simpl in Hm; rewrite !elem_of_cons, elem_of_nil in Hm;
    repeat (destruct Hm as [->|Hm]); try done;
    apply (bool_decide_unpack _); by vm_compute.
Qed.

Lemma catalogPairs_models_distinct : NoDup catalogPairs.*2.
Proof. apply (bool_decide_unpack _). by vm_compute. Qed.

(** X11. A model belongs to one provider only: two consistent states with
    the same model have the same provider.  Hence a provider change that
    kept the model would always leave an inconsistent pair. *)
Theorem model_determines_provider (s s' : FormState) :
  consistent s → consistent s' → model s = model s' →
  provider s = provider s'.
Proof.
  intros Hs Hs' Hmodel.
  apply consistent_cases in Hs, Hs'. rewrite Hmodel in Hs.
  pose proof catalogPairs_models_distinct as Hdistinct.
  apply list_elem_of_lookup in Hs as [i Hi], Hs' as [j Hj].
  assert (i = j) as ->.
  { apply (NoDup_lookup _ i j (model s') Hdistinct);
      rewrite list_lookup_fmap; [by rewrite Hi|by rewrite Hj]. }
  congruence.
Qed.

Lemma model_determines_provider_witness :
  js "openai" = js "openai".
Proof.
  apply (model_determines_provider
    {| internalInputValue := js "a"; effort := js "low";
       provider := js "openai"; model := js "gpt-4o" |}
    {| internalInputValue := js ""; effort := js "high";
       provider := js "openai"; model := js "gpt-4o" |}).
  - vm_compute. right. left.
  - vm_compute. right. left.
  - reflexivity.
Defined.

(** X12. The model items of a render have pairwise distinct values, so the
    keys React is given for them (line 207) never collide. *)
Theorem rendered_model_items_distinct (s : FormState) (items : list jsstring) :
  renderModelItems s = Some items → NoDup items.
Proof.
  unfold renderModelItems.
  destruct (modelOptions !! provider s) as [options|] eqn:Hp; [|done].
  intros [= <-]. apply elem_of_dom_2 in Hp as Hd.
  apply providerItems_keys in Hd.
  rewrite !elem_of_cons, elem_of_nil in Hd.
  destruct Hd as [Hd|[Hd|[Hd|[Hd|[]]]]];
    rewrite Hd in Hp; vm_compute in Hp; injection Hp as <-;
    apply (bool_decide_unpack _); by vm_compute.
Qed.

Lemma rendered_model_items_distinct_witness :
  NoDup [js "gpt-4o-mini"; js "gpt-4o"; js "gpt-4-turbo"].
Proof.
  apply (rendered_model_items_distinct
    {| internalInputValue := js ""; effort := js "medium";
       provider := js "openai"; model := js "gpt-4o" |}).
  vm_compute. reflexivity.
Defined.

(** X13. A completed transition changes only what its listener is for:
    typing, key presses, submitting and cancelling keep effort, provider and
    model; the effort selector keeps the draft, provider and model; the
    provider selector keeps the draft and the effort; the model selector
    keeps the draft, the effort and the provider. *)
Theorem listeners_change_their_own_cells (s s' : FormState) (ev : Event) :
  dispatch s ev = Some s' →
  match ev with
  | TextareaChange _ | TextareaKeyDown _ | FormSubmit _ | CancelClick =>
      effort s' = effort s ∧ provider s' = provider s ∧ model s' = model s
  | EffortValueChange _ =>
      internalInputValue s' = internalInputValue s ∧
      provider s' = provider s ∧ model s' = model s
  | ProviderValueChange _ =>
      internalInputValue s' = internalInputValue s ∧ effort s' = effort s
  | ModelValueChange _ =>
      internalInputValue s' = internalInputValue s ∧
      effort s' = effort s ∧ provider s' = provider s
  | NewSearchClick => s' = initialState
  end.
Proof.
  intros Hshape%dispatch_shape.
  destruct ev as [t|e|f|v|v|v| |]; simpl in Hshape.
  - by subst s'.
  - by destruct Hshape as [->|[_ ->]].
  - by destruct Hshape as [->|[_ ->]].
  - by subst s'.
  - by destruct Hshape as (first & rest & _ & ->).
  - by subst s'.
  - by subst s'.
  - done.
Qed.

Lemma listeners_change_their_own_cells_witness :
  js "medium" = js "medium" ∧ js "gemini" = js "gemini" ∧
  js "gemini-2.5-flash-preview-04-17" = js "gemini-2.5-flash-preview-04-17".
Proof.
  apply (listeners_change_their_own_cells initialState
    {| internalInputValue := js "abc"; effort := js "medium";
       provider := js "gemini";
       model := js "gemini-2.5-flash-preview-04-17" |}
    (TextareaChange (js "abc"))).
  reflexivity.
Defined.

(** X14. After the submit handler has run, whether it sent the draft or
    found it blank, the submit button is disabled whatever [isLoading] is,
    and running the handler again at once sends nothing. *)
Theorem submit_leaves_button_disabled (props : Props) (s : FormState)
    (ev : Event) :
  submits ev →
  ∃ s',
    dispatch s ev = Some s' ∧
    isSubmitDisabled props s' = true ∧
    onSubmitCalls (handle s' ev).1 = [].
Proof.
  intros Hsub.
  assert (Hstep : dispatch s ev = dispatch s (FormSubmit SubmitEvent)).
  { unfold dispatch. simpl. by rewrite (handle_submits s ev Hsub). }
  assert (Hblank : ∀ s1, trim (internalInputValue s1) = [] →
            isSubmitDisabled props s1 = true ∧
            onSubmitCalls (handle s1 ev).1 = []).
  { intros s1 Hs1. unfold isSubmitDisabled.
    rewrite (handle_submits s1 ev Hsub), handleInternalSubmit_blank, Hs1
      by done.
    done. }
  rewrite Hstep.
  destruct (decide (trim (internalInputValue s) = [])) as [Hb|Ht].
  - exists s. split; [by apply dispatch_submit_blank|by apply Hblank].
  - eexists. split; [by apply dispatch_submit_text|by apply Hblank].
Qed.

Lemma submit_leaves_button_disabled_witness :
  let ev := TextareaKeyDown (mkKey (js "Enter") false false false false) in
  ∃ s',
    dispatch (mkState (js "hi") (js "low") (js "grok") (js "grok-beta")) ev =
      Some s' ∧
    isSubmitDisabled (mkProps false false) s' = true ∧
    onSubmitCalls (handle s' ev).1 = [].
Proof.
  intros ev.
  apply (submit_leaves_button_disabled (mkProps false false)
           (mkState (js "hi") (js "low") (js "grok") (js "grok-beta")) ev).
  vm_compute. split; reflexivity.
Defined.

Lemma handleInternalSubmit_log (s : FormState) (e : option FormEvent)
    (eff : Effect) :
  eff ∈ (handleInternalSubmit s e).1 →
  eff = PreventDefault ∨
  eff = OnSubmit (internalInputValue s) (effort s) (provider s) (model s) ∨
  eff = SetInternalInputValue (js "").
Proof.
  unfold handleInternalSubmit.
  destruct e, (negb (truthy (trim (internalInputValue s)))); simpl;
    rewrite ?elem_of_cons, elem_of_nil; tauto.
Qed.

(** X15. The caller's [onCancel] is invoked by the click listener of the
    cancel button and by no other listener, and the page is reloaded by the
    click listener of the new-search button and by no other listener. *)
Theorem cancel_and_reload_have_one_source (s : FormState) (ev : Event) :
  (OnCancel ∈ (handle s ev).1 ↔ ev = CancelClick) ∧
  (Reload ∈ (handle s ev).1 ↔ ev = NewSearchClick).
Proof.
  destruct (decide (submits ev)) as [Hsub|Hother].
  - rewrite (handle_submits s ev Hsub).
    split; (split; [|by intros ->]); intros Hin;
      by destruct (handleInternalSubmit_log _ _ _ Hin) as [?|[?|?]].
  - assert (Hidle : ∀ e, ¬ (key e = js "Enter" ∧ shiftKey e = false) →
              handleInternalKeyDown s e = ([], Normal ())).
    { intros e He. apply handleInternalKeyDown_idle.
      destruct (decide (key e = js "Enter")); [right|by left].
      destruct (shiftKey e); [done|]. by destruct He. }
    destruct ev as [t|e|f|v|v|v| |]; simpl in *; try done;
      rewrite ?Hidle by done; unfold handleProviderChange;
      try destruct (modelOptions !! v) as [[|first rest]|]; simpl;
      rewrite ?elem_of_cons, ?elem_of_nil; intuition discriminate.
Qed.

(** X16. Enter without Shift on a draft that is empty or white space only
    is swallowed: the handler cancels the key's default action, so no line
    break is inserted, and it does nothing else, so nothing is sent and the
    state stays as it is. *)
Theorem plain_enter_on_blank_draft_is_swallowed (s : FormState)
    (e : KeyboardEvent) :
  key e = js "Enter" → shiftKey e = false →
  forallb isWhiteSpace (internalInputValue s) = true →
  handleInternalKeyDown s e = ([PreventDefault], Normal ()) ∧
  dispatch s (TextareaKeyDown e) = Some s.
Proof.
  intros Hkey Hshift Hblank%trim_nil.
  pose proof (handleInternalKeyDown_enter s e Hkey Hshift) as Henter.
  rewrite handleInternalSubmit_blank in Henter by done.
  split; [done|]. unfold dispatch. simpl. by rewrite Henter.
Qed.

Lemma plain_enter_on_blank_draft_is_swallowed_witness :
  let s := {| internalInputValue := js "   "; effort := js "medium";
              provider := js "gemini"; model := js "gemini-2.0-flash" |} in
  let e := mkKey (js "Enter") false false true false in
  handleInternalKeyDown s e = ([PreventDefault], Normal ()) ∧
  dispatch s (TextareaKeyDown e) = Some s.
Proof.
  intros s e.
  apply (plain_enter_on_blank_draft_is_swallowed s e); reflexivity.
Defined.
